(** * Mental Wellbeing Agent (simplified): prompt formatting and response
      segmentation

    A shallow embedding of [ai_mental_wellbeing_agent_simple.py]: the
    f-string that builds the task, the loop that concatenates the
    assistant-tagged turns of the chat history, the split on blank lines
    into the three session buckets, and the submission handler around them
    (credential check, single [try]/[except], session store).

    Python [str] values are modelled as [string] (sequences of bytes, the
    UTF-8 encoding of the text).  The only separators the program searches
    for are ASCII, so searching bytes and searching code points agree. *)

From Stdlib Require Import String Ascii ZArith List Bool Lia DecimalString.
From Stdlib Require DecimalPos DecimalZ.
From stdpp Require Import gmap strings.
Import ListNotations.
Open Scope string_scope.

(** ** Python values, exceptions and the string primitives the script uses *)

Module Py.

(** The values a chat-history entry can hold under a key. *)
Inductive pyval :=
  | PyNone
  | PyStr (s : string)
  | PyInt (z : Z).

(** [type(v).__name__] *)
Definition type_name (v : pyval) : string :=
  match v with
  | PyNone => "NoneType"
  | PyStr _ => "str"
  | PyInt _ => "int"
  end.

(** A raised exception, with its class name and [str(e)]: an instance of
    [Exception] (of the subclass [cls]), or an instance of a class that
    derives from [BaseException] only ([KeyboardInterrupt], [SystemExit],
    [asyncio.CancelledError], ...). *)
Inductive exn :=
  | Exception (cls : string) (msg : string)
  | BaseException (cls : string) (msg : string).

Definition exn_str (e : exn) : string :=
  match e with
  | Exception _ msg => msg
  | BaseException _ msg => msg
  end.

(** [isinstance(e, Exception)]: what an [except Exception] clause catches. *)
Definition is_Exception (e : exn) : bool :=
  match e with
  | Exception _ _ => true
  | BaseException _ _ => false
  end.

(** A computation that returns a value or raises. *)
Inductive result (A : Type) :=
  | Ok (a : A)
  | Raise (e : exn).
Arguments Ok {A} a.
Arguments Raise {A} e.

Definition bind {A B : Type} (r : result A) (k : A -> result B) : result B :=
  match r with
  | Ok a => k a
  | Raise e => Raise e
  end.

Notation "'let*' x ':=' r 'in' k" := (bind r (fun x => k))
  (at level 10, x name, r at level 100, k at level 200).

(** The line feed and the blank-line separator ["\n\n"]. *)
Definition LF : string := String (ascii_of_nat 10) "".
Definition blank_line : string := LF +:+ LF.

(** [sep.join(items)] *)
Fixpoint str_join (sep : string) (items : list string) : string :=
  match items with
  | [] => ""
  | [x] => x
  | x :: rest => x +:+ sep +:+ str_join sep rest
  end.

(** [str(n)] for an [int]. *)
Definition str_of_int (n : Z) : string := NilZero.string_of_int (Z.to_int n).

(** The left-to-right scan behind [s.split(sep)]: [cur] is the fragment being
    read, [skip] counts the characters of a matched separator that are still
    to be passed over.  A separator is recognised at the leftmost position
    where it occurs, and the search resumes after it. *)
Fixpoint split_scan (sep : string) (skip : nat) (cur : string) (s : string)
  : list string :=
  match s with
  | "" => [cur]
  | String c s' =>
      match skip with
      | S k => split_scan sep k cur s'
      | O =>
          if String.prefix sep s
          then cur :: split_scan sep (String.length sep - 1) "" s'
          else split_scan sep 0 (cur +:+ String c "") s'
      end
  end.

(** [s.split(sep)]; an empty separator raises [ValueError]. *)
Definition str_split (s sep : string) : result (list string) :=
  match sep with
  | "" => Raise (Exception "ValueError" "empty separator")
  | _ => Ok (split_scan sep 0 "" s)
  end.

(** [sub in s] *)
Fixpoint str_contains (sub s : string) : bool :=
  String.prefix sub s ||
  match s with
  | "" => false
  | String _ s' => str_contains sub s'
  end.

(** [s.endswith(suffix)] *)
Fixpoint str_endswith (s suffix : string) : bool :=
  String.eqb s suffix ||
  match s with
  | "" => false
  | String _ s' => str_endswith s' suffix
  end.

(** [v + s] with [s] a [str]: concatenation when [v] is a [str], and
    [TypeError] otherwise. *)
Definition add_str (v : pyval) (s : string) : result string :=
  match v with
  | PyStr t => Ok (t +:+ s)
  | _ =>
      Raise (Exception "TypeError"
               ("unsupported operand type(s) for +: '" +:+ type_name v
                +:+ "' and 'str'"))
  end.

(** [v == s] with [s] a [str]: never raises, and holds only for an equal
    [str]. *)
Definition eq_str (v : pyval) (s : string) : bool :=
  match v with
  | PyStr t => String.eqb t s
  | _ => false
  end.

(** [l[i]] on a list; out of range raises [IndexError]. *)
Definition list_getitem (l : list string) (i : nat) : result string :=
  match l !! i with
  | Some x => Ok x
  | None => Raise (Exception "IndexError" "list index out of range")
  end.

(** A [dict] with string keys. *)
Abbreviation dict := (gmap string pyval).

(** [d.get(key)]: [None] when the key is absent. *)
Definition dict_get (d : dict) (key : string) : pyval :=
  match d !! key with
  | Some v => v
  | None => PyNone
  end.

(** [d.get(key, fallback)] *)
Definition dict_get_default (d : dict) (key : string) (fallback : pyval)
  : pyval :=
  match d !! key with
  | Some v => v
  | None => fallback
  end.

End Py.
Import Py.

(** ** Prompt Formatter (the f-string assigned to [task]) *)

Module Formatter.

(** The six values read from the widgets on a render pass. *)
Record IntakeForm := {
  mental_state : string;          (* st.text_area *)
  sleep_pattern : string;         (* st.select_slider over "0" .. "12" *)
  stress_level : Z;               (* st.slider 1 .. 10 *)
  support_system : list string;   (* st.multiselect, in selection order *)
  recent_changes : string;        (* st.text_area *)
  current_symptoms : list string  (* st.multiselect, in selection order *)
}.

(** [', '.join(xs) if xs else 'None reported'] *)
Definition render_selection (xs : list string) : string :=
  match xs with
  | [] => "None reported"
  | _ :: _ => str_join ", " xs
  end.

(** The sixteen spaces that indent every line of the literal. *)
Definition indent : string := "                ".

(** One line of the triple-quoted literal: indentation, text, line feed. *)
Definition line (text : string) : string := indent +:+ text +:+ LF.

Definition format_task (f : IntakeForm) : string :=
  LF
  +:+ line "Create a comprehensive mental health support plan based on:"
  +:+ line ""
  +:+ line ("Emotional State: " +:+ mental_state f)
  +:+ line ("Sleep: " +:+ sleep_pattern f +:+ " hours per night")
  +:+ line ("Stress Level: " +:+ str_of_int (stress_level f) +:+ "/10")
  +:+ line ("Support System: " +:+ render_selection (support_system f))
  +:+ line ("Recent Changes: " +:+ recent_changes f)
  +:+ line ("Current Symptoms: " +:+ render_selection (current_symptoms f))
  +:+ line ""
  +:+ line "Please provide a structured response with three sections:"
  +:+ line "1. Assessment: Analyze the emotional state and psychological needs"
  +:+ line "2. Action Plan: Provide immediate coping strategies and resources"
  +:+ line "3. Follow-up Strategy: Design long-term support and prevention plans"
  +:+ indent.

End Formatter.
Import Formatter.

(** ** Response Segmenter (from [full_response = ""] to the stored dict) *)

Module Segmenter.

(** The value of [st.session_state.output]. *)
Record SessionOutput := {
  assessment : string;
  action : string;
  followup : string
}.

(** The three buckets in display order. *)
Definition buckets (o : SessionOutput) : list string :=
  [assessment o; action o; followup o].

(** [message.get('role') == 'assistant'] *)
Definition is_assistant (message : dict) : bool :=
  eq_str (dict_get message "role") "assistant".

(** The [for message in conversation] loop, [full_response] threaded
    through it. *)
Fixpoint concat_assistant (full_response : string) (conversation : list dict)
  : result string :=
  match conversation with
  | [] => Ok full_response
  | message :: rest =>
      if is_assistant message
      then
        let* piece :=
          add_str (dict_get_default message "content" (PyStr "")) blank_line in
        concat_assistant (full_response +:+ piece) rest
      else concat_assistant full_response rest
  end.

Definition full_response (conversation : list dict) : result string :=
  concat_assistant "" conversation.

(** The dict literal stored in the session: each index is read only under
    its length guard. *)
Definition store_results (sections : list string) (full_response : string)
  : result SessionOutput :=
  let* a :=
    (if (0 <? length sections)%nat then list_getitem sections 0
     else Ok full_response) in
  let* b :=
    (if (1 <? length sections)%nat then list_getitem sections 1 else Ok "") in
  let* c :=
    (if (2 <? length sections)%nat then list_getitem sections 2 else Ok "") in
  Ok {| assessment := a; action := b; followup := c |}.

Definition segment (conversation : list dict) : result SessionOutput :=
  let* full := full_response conversation in
  let* sections := str_split full blank_line in
  store_results sections full.

(** *** Vocabulary for stating properties of a conversation *)

(** The assistant-tagged turns, in order. *)
Definition assistant_turns (conversation : list dict) : list dict :=
  List.filter is_assistant conversation.

(** A turn's payload is text: its content is a [str], or is absent. *)
Definition has_text (message : dict) : bool :=
  match message !! "content" with
  | None | Some (PyStr _) => true
  | Some _ => false
  end.

Definition text_of (message : dict) : string :=
  match message !! "content" with
  | Some (PyStr s) => s
  | _ => ""
  end.

Definition text_payloads (conversation : list dict) : bool :=
  forallb has_text (assistant_turns conversation).

(** A text that neither contains a blank line nor ends with a line feed. *)
Definition single_fragment (text : string) : bool :=
  negb (str_contains blank_line text) && negb (str_endswith text LF).

(** The texts of the assistant-tagged turns, in order. *)
Definition assistant_texts (conversation : list dict) : list string :=
  map text_of (assistant_turns conversation).

Definition single_fragment_payloads (conversation : list dict) : bool :=
  forallb single_fragment (assistant_texts conversation).

(** Each text followed by the separator, as the loop accumulates them. *)
Fixpoint terminated (texts : list string) : string :=
  match texts with
  | [] => ""
  | t :: rest => t +:+ blank_line +:+ terminated rest
  end.

(** A chat-history entry with a role and a text. *)
Definition turn (role text : string) : dict :=
  <["role" := PyStr role]> (<["content" := PyStr text]> ∅).

End Segmenter.
Import Segmenter.

(** ** Submission handler (the body of [if st.button("Get Support Plan")]) *)

Module App.

(** What a script run shows or requests, in order.  [Propagated e] ends a
    run: the exception [e] was raised inside the [try] block, is not caught
    by its [except Exception] clause, and leaves the script. *)
Inductive event :=
  | StError (msg : string)
  | StSpinner (msg : string)
  | InitiateChat (api_key task : string)
  | StExpander (label : string) (expanded : bool) (markdown : string)
  | StSuccess (msg : string)
  | Propagated (e : exn).

(** [st.session_state]: the ['output'] entry, when present. *)
Definition session_state := option SessionOutput.

(** [if 'output' not in st.session_state: ...] *)
Definition init_session (ss : session_state) : session_state :=
  match ss with
  | None => Some {| assessment := ""; action := ""; followup := "" |}
  | Some _ => ss
  end.

Section Handler.

(** The agents, the group chat and [user_proxy.initiate_chat(manager,
    message=task)] belong to the orchestration library.  Everything the
    script configures there is fixed except the credential and the task, so
    the blocking call is a function of those two: it raises, or returns the
    chat history. *)
Variable initiate_chat : string -> string -> result (list dict).

(** The body of the [try] block up to the dict that is stored. *)
Definition pipeline (api_key : string) (form : IntakeForm)
  : result SessionOutput :=
  let task := format_task form in
  let* conversation := initiate_chat api_key task in
  segment conversation.

Definition show_results (o : SessionOutput) : list event :=
  [ StExpander "Situation Assessment" true (assessment o);
    StExpander "Action Plan & Resources" false (action o);
    StExpander "Long-term Support Strategy" false (followup o);
    StSuccess "✨ Mental health support plan generated successfully!" ].

Definition show_exception (e : exn) : list event :=
  [ StError ("An error occurred: " +:+ exn_str e);
    StError "Please check your API key and try again." ].

Definition on_submit (api_key : string) (form : IntakeForm)
    (ss : session_state) : session_state * list event :=
  match api_key with
  | "" => (ss, [StError "Please enter your OpenAI API key."])
  | _ =>
      let busy :=
        [ StSpinner "🤖 AI Agents are analyzing your situation...";
          InitiateChat api_key (format_task form) ] in
      match pipeline api_key form with
      | Ok o => (Some o, (busy ++ show_results o)%list)
      | Raise e =>
          if is_Exception e
          then (ss, (busy ++ show_exception e)%list)
          else (ss, (busy ++ [Propagated e])%list)
      end
  end.

(** One run of the script: session initialisation, then the handler when the
    button was pressed. *)
Definition script (api_key : string) (form : IntakeForm) (button : bool)
    (ss : session_state) : session_state * list event :=
  let ss := init_session ss in
  if button then on_submit api_key form ss else (ss, []).

End Handler.

(** The tasks handed to the orchestration library during a run. *)
Definition requested_tasks (evs : list event) : list string :=
  flat_map (fun ev =>
              match ev with
              | InitiateChat _ task => [task]
              | _ => []
              end) evs.

Definition shows_spinner (evs : list event) : bool :=
  existsb (fun ev => match ev with StSpinner _ => true | _ => false end) evs.

End App.
Import App.

(** ** The state of the split scan *)

Module Scan.

(** The scan has passed no separator since the current fragment began: no
    non-empty suffix of the fragment [cur], continued by the input [s] still
    to be read, starts with the separator. *)
Definition unmatched (sep cur s : string) : Prop :=
  forall u v, cur = u +:+ v -> v <> "" -> String.prefix sep (v +:+ s) = false.

End Scan.
Import Scan.

(** ** Input widgets (the values the form can hold) *)

Module Widgets.

(** [options=[f"{i}" for i in range(0, 13)]] and [value="7"] of the sleep
    slider. *)
Definition sleep_options : list string :=
  map (fun i => str_of_int (Z.of_nat i)) (seq 0 13).
Definition sleep_default : string := "7".

(** [st.slider("Current Stress Level (1-10)", 1, 10, 5)] *)
Definition stress_min : Z := 1.
Definition stress_max : Z := 10.
Definition stress_default : Z := 5.

Definition support_options : list string :=
  ["Family"; "Friends"; "Therapist"; "Support Groups"; "None"].

Definition symptom_options : list string :=
  ["Anxiety"; "Depression"; "Insomnia"; "Fatigue"; "Loss of Interest";
   "Difficulty Concentrating"; "Changes in Appetite"; "Social Withdrawal";
   "Mood Swings"; "Physical Discomfort"].

(** [x in options] *)
Definition list_contains (options : list string) (x : string) : bool :=
  existsb (String.eqb x) options.

(** What [st.multiselect] can return: labels taken from its options. *)
Definition selected_from (options xs : list string) : bool :=
  forallb (list_contains options) xs.

(** A form whose widget-bound values are ones the widgets can return; the two
    text areas are unconstrained. *)
Definition widget_form (f : IntakeForm) : bool :=
  list_contains sleep_options (sleep_pattern f)
  && (stress_min <=? stress_level f)%Z
  && (stress_level f <=? stress_max)%Z
  && selected_from support_options (support_system f)
  && selected_from symptom_options (current_symptoms f).

(** [ch not in t], for a one-character string [ch]. *)
Definition char_free (ch : ascii) (t : string) : bool :=
  negb (str_contains (String ch "") t).

(** What the script's two option lists have in common: no label holds a
    comma or a line feed, and none is the text shown for an empty
    selection. *)
Definition plain_label (x : string) : bool :=
  char_free "," x && char_free (ascii_of_nat 10) x
  && negb (String.eqb x "None reported").

(** The fragments [task.split("\n")] is expected to give: the text before the
    first line feed, the thirteen lines of the literal, and the indentation
    before the closing quotes. *)
Definition task_lines (f : IntakeForm) : list string :=
  [ "";
    indent +:+ "Create a comprehensive mental health support plan based on:";
    indent;
    indent +:+ "Emotional State: " +:+ mental_state f;
    indent +:+ "Sleep: " +:+ sleep_pattern f +:+ " hours per night";
    indent +:+ "Stress Level: " +:+ str_of_int (stress_level f) +:+ "/10";
    indent +:+ "Support System: " +:+ render_selection (support_system f);
    indent +:+ "Recent Changes: " +:+ recent_changes f;
    indent +:+ "Current Symptoms: " +:+ render_selection (current_symptoms f);
    indent;
    indent +:+ "Please provide a structured response with three sections:";
    indent
    +:+ "1. Assessment: Analyze the emotional state and psychological needs";
    indent
    +:+ "2. Action Plan: Provide immediate coping strategies and resources";
    indent
    +:+ "3. Follow-up Strategy: Design long-term support and prevention plans";
    indent ].

(** Neither text area holds a line feed. *)
Definition single_line_texts (f : IntakeForm) : bool :=
  char_free (ascii_of_nat 10) (mental_state f)
  && char_free (ascii_of_nat 10) (recent_changes f).

End Widgets.
Import Widgets.

(** * Properties *)

Example split_trailing :
  str_split ("A" +:+ blank_line) blank_line = Ok ["A"; ""].
Proof. reflexivity. Qed.

Example split_three_newlines :
  str_split ("A" +:+ LF +:+ blank_line) blank_line = Ok ["A"; LF].
Proof. reflexivity. Qed.

Example split_empty : str_split "" blank_line = Ok [""].
Proof. reflexivity. Qed.

Example split_comma : str_split "a,b,,c," "," = Ok ["a"; "b"; ""; "c"; ""].
Proof. reflexivity. Qed.

Example split_overlapping : str_split "aaa" "aa" = Ok [""; "a"].
Proof. reflexivity. Qed.

Example join_three : str_join ", " ["a"; "b"; "c"] = "a, b, c".
Proof. reflexivity. Qed.

Example segment_none_content :
  segment [<["role" := PyStr "assistant"]> (<["content" := PyNone]> ∅)]
  = Raise (Exception "TypeError"
             "unsupported operand type(s) for +: 'NoneType' and 'str'").
Proof. reflexivity. Qed.

Example segment_missing_fields :
  segment [<["role" := PyStr "assistant"]> ∅; <["content" := PyStr "x"]> ∅]
  = Ok {| assessment := ""; action := ""; followup := "" |}.
Proof. reflexivity. Qed.

Example segment_trailing_line_feed :
  segment [turn "assistant" ("A" +:+ LF)]
  = Ok {| assessment := "A"; action := LF; followup := "" |}.
Proof. reflexivity. Qed.

Example segment_abc :
  segment [turn "assistant" "A"; turn "user" "x"; turn "assistant" "B"]
  = Ok {| assessment := "A"; action := "B"; followup := "" |}.
Proof. vm_compute. reflexivity. Qed.

Example submit_success :
  on_submit (fun _ _ => Ok [turn "user" "task"; turn "assistant" "A"])
    "sk-test"
    {| mental_state := "Tired"; sleep_pattern := "5"; stress_level := 8;
       support_system := []; recent_changes := ""; current_symptoms := [] |}
    None
  = (Some {| assessment := "A"; action := ""; followup := "" |},
     [ StSpinner "🤖 AI Agents are analyzing your situation...";
       InitiateChat "sk-test"
         (format_task
            {| mental_state := "Tired"; sleep_pattern := "5";
               stress_level := 8; support_system := [];
               recent_changes := ""; current_symptoms := [] |});
       StExpander "Situation Assessment" true "A";
       StExpander "Action Plan & Resources" false "";
       StExpander "Long-term Support Strategy" false "";
       StSuccess "✨ Mental health support plan generated successfully!" ]).
Proof. reflexivity. Qed.

Example submit_segmentation_failure :
  fst (on_submit
         (fun _ _ =>
            Ok [<["role" := PyStr "assistant"]> (<["content" := PyNone]> ∅)])
         "sk-test"
         {| mental_state := "Tired"; sleep_pattern := "5"; stress_level := 8;
            support_system := []; recent_changes := ""; current_symptoms := [] |}
         (Some {| assessment := "old"; action := "old"; followup := "old" |}))
  = Some {| assessment := "old"; action := "old"; followup := "old" |}.
Proof. reflexivity. Qed.

Example submit_keyboard_interrupt :
  on_submit (fun _ _ => Raise (BaseException "KeyboardInterrupt" ""))
    "sk-test"
    {| mental_state := "Tired"; sleep_pattern := "5"; stress_level := 8;
       support_system := []; recent_changes := ""; current_symptoms := [] |}
    (Some {| assessment := "old"; action := "old"; followup := "old" |})
  = (Some {| assessment := "old"; action := "old"; followup := "old" |},
     [ StSpinner "🤖 AI Agents are analyzing your situation...";
       InitiateChat "sk-test"
         (format_task
            {| mental_state := "Tired"; sleep_pattern := "5";
               stress_level := 8; support_system := [];
               recent_changes := ""; current_symptoms := [] |});
       Propagated (BaseException "KeyboardInterrupt" "") ]).
Proof. reflexivity. Qed.

(** ** Strings *)

Lemma str_app_cons (c : ascii) (s t : string) :
  String c s +:+ t = String c (s +:+ t).
Proof. reflexivity. Qed.

Lemma str_app_nil_r (s : string) : s +:+ "" = s.
Proof.
  induction s as [|c s IH]; [reflexivity |].
  now rewrite str_app_cons, IH.
Qed.

Lemma str_app_assoc (s t u : string) : (s +:+ t) +:+ u = s +:+ (t +:+ u).
Proof.
  induction s as [|c s IH]; [reflexivity |].
  now rewrite !str_app_cons, IH.
Qed.

Lemma str_length_app (s t : string) :
  String.length (s +:+ t) = (String.length s + String.length t)%nat.
Proof.
  induction s as [|c s IH]; [reflexivity |].
  rewrite str_app_cons. simpl. now rewrite IH.
Qed.

Lemma prefix_nil (s : string) : String.prefix "" s = true.
Proof. now destruct s. Qed.

Lemma prefix_cons (a b : ascii) (s t : string) :
  String.prefix (String a s) (String b t)
  = if ascii_dec a b then String.prefix s t else false.
Proof. reflexivity. Qed.

(** ** The split scan *)

Lemma split_scan_cons (sep : string) (s : string) :
  forall skip cur, exists first rest, split_scan sep skip cur s = first :: rest.
Proof.
  induction s as [|c s IH]; intros skip cur; cbn [split_scan].
  - now exists cur, [].
  - destruct skip as [|k]; [| apply IH].
    destruct (String.prefix sep (String c s)); [| apply IH].
    now exists cur, (split_scan sep (String.length sep - 1) "" s).
Qed.

Lemma prefix_true (s1 : string) :
  forall s2, String.prefix s1 s2 = true -> exists r, s2 = s1 +:+ r.
Proof.
  induction s1 as [|a s1 IH]; intros s2 H.
  - now exists s2.
  - destruct s2 as [|b s2]; [discriminate H |].
    rewrite prefix_cons in H.
    destruct (ascii_dec a b) as [<- | _]; [| discriminate H].
    destruct (IH s2 H) as [r ->]. now exists r.
Qed.

Lemma split_scan_skip (sep u : string) :
  forall cur r,
    split_scan sep (String.length u) cur (u +:+ r) = split_scan sep 0 cur r.
Proof.
  induction u as [|c u IH]; intros cur r.
  - now destruct r.
  - rewrite str_app_cons. cbn [String.length split_scan]. apply IH.
Qed.

(** The scan loses nothing: joining the fragments with the separator gives
    the string back ([sep.join(s.split(sep)) == s]). *)
Lemma join_split_scan (a : ascii) (sep' : string) (n : nat) :
  forall s cur,
    (String.length s <= n)%nat ->
    str_join (String a sep') (split_scan (String a sep') 0 cur s) = cur +:+ s.
Proof.
  induction n as [|n IH]; intros s cur Hlen.
  - destruct s; [| cbn in Hlen; lia]. cbn. now rewrite str_app_nil_r.
  - destruct s as [|c s]; [cbn; now rewrite str_app_nil_r |].
    cbn [split_scan].
    destruct (String.prefix (String a sep') (String c s)) eqn:Hp.
    + destruct (prefix_true _ _ Hp) as [r Hr].
      rewrite str_app_cons in Hr. injection Hr as -> ->.
      replace (String.length (String a sep') - 1)%nat
        with (String.length sep') by (cbn [String.length]; lia).
      rewrite split_scan_skip.
      destruct (split_scan_cons (String a sep') r 0 "") as (x & l & Hx).
      specialize (IH r "").
      rewrite Hx in *.
      change (str_join (String a sep') (cur :: x :: l))
        with (cur +:+ String a sep' +:+ str_join (String a sep') (x :: l)).
      rewrite IH; [reflexivity |].
      cbn [String.length] in Hlen. rewrite str_length_app in Hlen. lia.
    + rewrite IH by (cbn [String.length] in Hlen; lia).
      now rewrite str_app_assoc.
Qed.

Lemma join_split (s sep : string) (fragments : list string) :
  str_split s sep = Ok fragments -> str_join sep fragments = s.
Proof.
  destruct sep as [|a sep']; [discriminate |].
  intros H. injection H as <-.
  apply (join_split_scan a sep' (String.length s) s ""). lia.
Qed.

Lemma str_split_blank_line (s : string) :
  str_split s blank_line = Ok (split_scan blank_line 0 "" s).
Proof. reflexivity. Qed.

(** Passing over a separator that starts a string. *)
Lemma split_scan_blank_line (cur rest : string) :
  split_scan blank_line 0 cur (blank_line +:+ rest)
  = cur :: split_scan blank_line 0 "" rest.
Proof.
  change (blank_line +:+ rest)
    with (String (ascii_of_nat 10) (String (ascii_of_nat 10) rest)).
  destruct rest as [|c rest]; reflexivity.
Qed.

Lemma str_contains_cons (sub : string) (c : ascii) (t : string) :
  str_contains sub (String c t)
  = String.prefix sub (String c t) || str_contains sub t.
Proof. reflexivity. Qed.

Lemma str_endswith_cons (c : ascii) (t suffix : string) :
  str_endswith (String c t) suffix
  = String.eqb (String c t) suffix || str_endswith t suffix.
Proof. reflexivity. Qed.

Lemma blank_line_unfold :
  blank_line = String (ascii_of_nat 10) (String (ascii_of_nat 10) "").
Proof. reflexivity. Qed.

Lemma single_fragment_cons (c : ascii) (t : string) :
  single_fragment (String c t) = true ->
  String.prefix blank_line (String c t) = false
  /\ String.eqb (String c t) LF = false
  /\ single_fragment t = true.
Proof.
  unfold single_fragment. intros H.
  apply andb_prop in H as [Hc He].
  apply negb_true_iff in Hc, He.
  rewrite str_contains_cons in Hc. apply orb_false_elim in Hc as [Hp Hc].
  rewrite str_endswith_cons in He. apply orb_false_elim in He as [Hq He].
  now rewrite Hc, He.
Qed.

Lemma single_fragment_no_prefix (c : ascii) (t rest : string) :
  single_fragment (String c t) = true ->
  String.prefix blank_line (String c (t +:+ blank_line +:+ rest)) = false.
Proof.
  intros H. apply single_fragment_cons in H as (Hp & Hq & _).
  rewrite blank_line_unfold in *.
  rewrite prefix_cons in *.
  destruct (ascii_dec (ascii_of_nat 10) c) as [<- | Hne]; [| reflexivity].
  destruct t as [|d t].
  - unfold LF in Hq. now rewrite String.eqb_refl in Hq.
  - rewrite str_app_cons. rewrite prefix_cons in *.
    destruct (ascii_dec (ascii_of_nat 10) d); [| reflexivity].
    now rewrite prefix_nil in Hp.
Qed.

(** A text that is a single fragment, followed by the separator, is split off
    whole. *)
Lemma split_scan_fragment (t : string) :
  single_fragment t = true ->
  forall cur rest,
    split_scan blank_line 0 cur (t +:+ blank_line +:+ rest)
    = (cur +:+ t) :: split_scan blank_line 0 "" rest.
Proof.
  induction t as [|c t IH]; intros Hsf cur rest.
  - rewrite str_app_nil_r. apply split_scan_blank_line.
  - change (String c t +:+ blank_line +:+ rest)
      with (String c (t +:+ blank_line +:+ rest)).
    cbn [split_scan].
    rewrite (single_fragment_no_prefix c t rest Hsf).
    rewrite (IH (proj2 (proj2 (single_fragment_cons c t Hsf)))).
    now rewrite str_app_assoc.
Qed.

Lemma split_terminated (texts : list string) :
  forallb single_fragment texts = true ->
  split_scan blank_line 0 "" (terminated texts) = (texts ++ [""])%list.
Proof.
  induction texts as [|t texts IH]; intros H; [reflexivity |].
  apply andb_prop in H as [Ht Hrest].
  cbn [terminated]. rewrite (split_scan_fragment t Ht).
  now rewrite (IH Hrest).
Qed.

(** ** The concatenation loop *)

Lemma concat_assistant_turns (conv : list dict) :
  forall acc,
    concat_assistant acc conv = concat_assistant acc (assistant_turns conv).
Proof.
  unfold assistant_turns.
  induction conv as [|m conv IH]; intros acc; [reflexivity |].
  cbn [concat_assistant List.filter].
  destruct (is_assistant m) eqn:Hm; [| apply IH].
  cbn [concat_assistant]. rewrite Hm.
  destruct (add_str _ _); [apply IH | reflexivity].
Qed.

Lemma add_str_text (m : dict) :
  has_text m = true ->
  add_str (dict_get_default m "content" (PyStr "")) blank_line
  = Ok (text_of m +:+ blank_line).
Proof.
  unfold has_text, dict_get_default, text_of.
  destruct (m !! "content") as [[| t |] |]; intros H;
    (discriminate H || reflexivity).
Qed.

Lemma concat_assistant_text (conv : list dict) :
  text_payloads conv = true ->
  forall acc,
    concat_assistant acc conv = Ok (acc +:+ terminated (assistant_texts conv)).
Proof.
  unfold text_payloads, assistant_texts, assistant_turns.
  induction conv as [|m conv IH]; intros H acc.
  - cbn. now rewrite str_app_nil_r.
  - cbn [concat_assistant List.filter] in *.
    destruct (is_assistant m) eqn:Hm; [| now apply IH].
    cbn [forallb map terminated] in *.
    apply andb_prop in H as [Ht Hrest].
    rewrite (add_str_text m Ht). cbn [bind].
    rewrite (IH Hrest). now rewrite !str_app_assoc.
Qed.

Lemma full_response_text (conv : list dict) :
  text_payloads conv = true ->
  full_response conv = Ok (terminated (assistant_texts conv)).
Proof. intros H. unfold full_response. now rewrite concat_assistant_text. Qed.

(** ** Storing the sections *)

Lemma store_results_cons (first : string) (rest : list string) (full : string) :
  exists b c,
    store_results (first :: rest) full
    = Ok {| assessment := first; action := b; followup := c |}.
Proof.
  destruct rest as [|b [|c rest]]; cbn; eauto.
Qed.

Lemma segment_of_full_response (conv : list dict) (full : string) :
  full_response conv = Ok full ->
  segment conv = store_results (split_scan blank_line 0 "" full) full.
Proof. intros H. unfold segment. now rewrite H. Qed.

Lemma segment_text_total (conv : list dict) :
  text_payloads conv = true -> exists o, segment conv = Ok o.
Proof.
  intros H. rewrite (segment_of_full_response _ _ (full_response_text conv H)).
  destruct (split_scan_cons blank_line (terminated (assistant_texts conv)) 0 "")
    as (first & rest & ->).
  destruct (store_results_cons first rest (terminated (assistant_texts conv)))
    as (b & c & ->).
  eauto.
Qed.

(** ** Response Segmenter: claims *)

(** C1 (as amended).  For every conversation-turn sequence with fewer than 3
    assistant-tagged turns whose payloads are text (a [str] content, or no
    content at all), the Response Segmenter does not raise; and when none of
    those texts contains a blank line (two consecutive line feeds) or ends
    with a line feed, every bucket whose position is not below the number of
    assistant-tagged turns is the empty string. *)
Theorem segment_short_conversation (conv : list dict) :
  text_payloads conv = true ->
  (length (assistant_turns conv) < 3)%nat ->
  exists o,
    segment conv = Ok o
    /\ (single_fragment_payloads conv = true ->
        forall i, (length (assistant_turns conv) <= i < 3)%nat ->
                  buckets o !! i = Some "").
Proof.
  intros Htext Hshort.
  destruct (segment_text_total conv Htext) as [o Ho].
  exists o. split; [exact Ho |].
  intros Hsf i Hi.
  rewrite (segment_of_full_response _ _ (full_response_text conv Htext)) in Ho.
  unfold single_fragment_payloads in Hsf.
  rewrite (split_terminated _ Hsf) in Ho.
  assert (Hlen : length (assistant_texts conv) = length (assistant_turns conv))
    by apply length_map.
  rewrite <- Hlen in Hshort, Hi.
  destruct (assistant_texts conv) as [|a [|b [|c rest]]];
    cbn in Ho, Hshort, Hi; try lia;
    injection Ho as <-;
    destruct i as [|[|[|i]]]; try lia; reflexivity.
Qed.

Lemma segment_short_conversation_witness :
  exists o,
    segment [turn "user" "Hello"; turn "assistant" "Rest well."] = Ok o
    /\ forall i, (1 <= i < 3)%nat -> buckets o !! i = Some "".
Proof.
  destruct (segment_short_conversation
              [turn "user" "Hello"; turn "assistant" "Rest well."])
    as (o & Ho & Hempty).
  - reflexivity.
  - vm_compute. lia.
  - exists o. split; [exact Ho |].
    intros i Hi. apply Hempty; [reflexivity | exact Hi].
Defined.

(** C1 fails as stated: one assistant-tagged turn whose text holds a blank
    line fills the action bucket as well. *)
Lemma segment_short_conversation_counterexample :
  let conv := [turn "assistant" ("Breathe." +:+ blank_line +:+ "Rest.")] in
  text_payloads conv = true
  /\ length (assistant_turns conv) = 1%nat
  /\ segment conv
     = Ok {| assessment := "Breathe."; action := "Rest."; followup := "" |}
  /\ ~ (exists o,
          segment conv = Ok o
          /\ forall i, (length (assistant_turns conv) <= i < 3)%nat ->
                       buckets o !! i = Some "").
Proof.
  cbv zeta. repeat split; try reflexivity.
  intros (o & Ho & Hempty).
  specialize (Hempty 1%nat).
  change (segment _) with
    (Ok {| assessment := "Breathe."; action := "Rest."; followup := "" |})
    in Ho.
  injection Ho as <-.
  assert (H : (1 <= 1 < 3)%nat) by lia.
  specialize (Hempty H). discriminate Hempty.
Qed.

(** C2 (as amended).  For the three assistant-tagged turns "A", "B", "C" the
    intermediate concatenation is "A\n\nB\n\nC\n\n": every text, the last one
    included, is followed by the separator.  Splitting it yields the
    fragments "A", "B", "C", "" and the buckets are assessment = "A",
    action = "B", followup = "C". *)
Theorem segment_round_trip :
  let conv := [turn "assistant" "A"; turn "assistant" "B"; turn "assistant" "C"] in
  full_response conv
  = Ok ("A" +:+ blank_line +:+ "B" +:+ blank_line +:+ "C" +:+ blank_line)
  /\ str_split ("A" +:+ blank_line +:+ "B" +:+ blank_line +:+ "C" +:+ blank_line)
               blank_line
     = Ok ["A"; "B"; "C"; ""]
  /\ segment conv = Ok {| assessment := "A"; action := "B"; followup := "C" |}.
Proof. cbv zeta. repeat split; reflexivity. Qed.

(** C2 fails as stated: the concatenation is not "A\n\nB\n\nC". *)
Lemma segment_round_trip_counterexample :
  full_response
    [turn "assistant" "A"; turn "assistant" "B"; turn "assistant" "C"]
  <> Ok ("A" +:+ blank_line +:+ "B" +:+ blank_line +:+ "C").
Proof.
  change (full_response _) with
    (Ok ("A" +:+ blank_line +:+ "B" +:+ blank_line +:+ "C" +:+ blank_line)).
  intros H. injection H as H. vm_compute in H. discriminate H.
Qed.

(** C6.  The Response Segmenter's result depends only on the assistant-tagged
    turns: two conversations with the same subsequence of assistant-tagged
    turns give the same result (the same three buckets, or the same
    exception). *)
Theorem segment_assistant_only (conv1 conv2 : list dict) :
  assistant_turns conv1 = assistant_turns conv2 ->
  segment conv1 = segment conv2.
Proof.
  intros H. unfold segment, full_response.
  rewrite (concat_assistant_turns conv1), (concat_assistant_turns conv2).
  now rewrite H.
Qed.

Lemma segment_assistant_only_witness :
  segment [turn "user" "task"; turn "assistant" "A"; turn "action_agent" "B"]
  = segment [turn "assistant" "A"; turn "followup_agent" "C"].
Proof. apply segment_assistant_only. reflexivity. Defined.

(** C7.  For every conversation-turn sequence with no assistant-tagged turn,
    all three buckets are the empty string. *)
Theorem segment_no_assistant (conv : list dict) :
  length (assistant_turns conv) = 0%nat ->
  segment conv = Ok {| assessment := ""; action := ""; followup := "" |}.
Proof.
  intros H. apply length_zero_iff_nil in H.
  unfold segment, full_response.
  rewrite concat_assistant_turns, H. reflexivity.
Qed.

Lemma segment_no_assistant_witness :
  segment [turn "user" "task"; turn "assessment_agent" "You are tired."]
  = Ok {| assessment := ""; action := ""; followup := "" |}.
Proof. apply segment_no_assistant. reflexivity. Defined.

(** C10.  Whenever the concatenation loop completes, splitting its result on
    the blank-line separator yields at least one fragment; the length guard
    of the assessment bucket therefore holds, the bucket is the first
    fragment, and the fallback to the whole concatenation is never taken. *)
Theorem sections_never_empty (conv : list dict) (full : string) :
  full_response conv = Ok full ->
  exists first rest o,
    str_split full blank_line = Ok (first :: rest)
    /\ (0 <? length (first :: rest))%nat = true
    /\ segment conv = Ok o
    /\ assessment o = first.
Proof.
  intros H.
  rewrite (segment_of_full_response conv full H), str_split_blank_line.
  destruct (split_scan_cons blank_line full 0 "") as (first & rest & ->).
  destruct (store_results_cons first rest full) as (b & c & ->).
  exists first, rest. eexists. repeat split.
Qed.

Lemma sections_never_empty_witness :
  exists first rest o,
    str_split ("A" +:+ blank_line) blank_line = Ok (first :: rest)
    /\ (0 <? length (first :: rest))%nat = true
    /\ segment [turn "assistant" "A"] = Ok o
    /\ assessment o = first.
Proof.
  apply (sections_never_empty [turn "assistant" "A"] ("A" +:+ blank_line)).
  reflexivity.
Defined.

(** ** Prompt Formatter: claims *)

Lemma str_join_concat (sep : string) (items : list string) :
  str_join sep items = String.concat sep items.
Proof.
  induction items as [|x items IH]; [reflexivity |].
  destruct items as [|y rest]; [reflexivity |].
  change (x +:+ sep +:+ str_join sep (y :: rest)
          = x +:+ sep +:+ String.concat sep (y :: rest)).
  now rewrite IH.
Qed.

Lemma prefix_app (s t : string) : String.prefix s (s +:+ t) = true.
Proof.
  induction s as [|c s IH]; [apply prefix_nil |].
  rewrite str_app_cons, prefix_cons.
  destruct (ascii_dec c c) as [_ | Hne]; [exact IH | now destruct Hne].
Qed.

Lemma str_contains_unfold (sub s : string) :
  str_contains sub s
  = String.prefix sub s
    || match s with "" => false | String _ s' => str_contains sub s' end.
Proof. now destruct s. Qed.

Lemma str_contains_app (pre sub post : string) :
  str_contains sub (pre +:+ sub +:+ post) = true.
Proof.
  induction pre as [|c pre IH].
  - change ("" +:+ sub +:+ post) with (sub +:+ post).
    rewrite str_contains_unfold, prefix_app. reflexivity.
  - rewrite str_app_cons, str_contains_cons, IH. apply orb_true_r.
Qed.

(** C4.  The formatted prompt is the text of the literal, written out here
    character by character, with the six values in their places: the
    support-system field is the literal "None reported" when the selection
    is empty, and otherwise the selected labels joined by ", " in selection
    order; the symptom field follows the same rule. *)
Theorem selection_fields (f : IntakeForm) :
  let nl := String (ascii_of_nat 10) "" in
  let support :=
    match support_system f with
    | [] => "None reported"
    | _ :: _ => String.concat ", " (support_system f)
    end in
  let symptoms :=
    match current_symptoms f with
    | [] => "None reported"
    | _ :: _ => String.concat ", " (current_symptoms f)
    end in
  format_task f
  = nl
    +:+ "                Create a comprehensive mental health support plan based on:"
    +:+ nl
    +:+ "                " +:+ nl
    +:+ "                Emotional State: " +:+ mental_state f +:+ nl
    +:+ "                Sleep: " +:+ sleep_pattern f +:+ " hours per night"
    +:+ nl
    +:+ "                Stress Level: "
    +:+ NilZero.string_of_int (Z.to_int (stress_level f)) +:+ "/10" +:+ nl
    +:+ "                Support System: " +:+ support +:+ nl
    +:+ "                Recent Changes: " +:+ recent_changes f +:+ nl
    +:+ "                Current Symptoms: " +:+ symptoms +:+ nl
    +:+ "                " +:+ nl
    +:+ "                Please provide a structured response with three sections:"
    +:+ nl
    +:+ "                1. Assessment: Analyze the emotional state and psychological needs"
    +:+ nl
    +:+ "                2. Action Plan: Provide immediate coping strategies and resources"
    +:+ nl
    +:+ "                3. Follow-up Strategy: Design long-term support and prevention plans"
    +:+ nl
    +:+ "                ".
Proof.
  cbv zeta. unfold format_task, line, render_selection, str_of_int.
  rewrite !str_join_concat, !str_app_assoc.
  destruct (support_system f), (current_symptoms f); reflexivity.
Qed.

(** C9.  Each free-text field (mood description, recent changes) occurs
    verbatim in the formatted task, right after its label and up to the end
    of its line, whatever its characters and length. *)
Theorem free_text_verbatim (f : IntakeForm) :
  (exists pre post,
      format_task f
      = (pre +:+ "Emotional State: ") +:+ mental_state f +:+ (LF +:+ post))
  /\ (exists pre post,
         format_task f
         = (pre +:+ "Recent Changes: ") +:+ recent_changes f +:+ (LF +:+ post))
  /\ str_contains (mental_state f) (format_task f) = true
  /\ str_contains (recent_changes f) (format_task f) = true.
Proof.
  assert (Hm : exists pre post,
             format_task f
             = (pre +:+ "Emotional State: ") +:+ mental_state f +:+ (LF +:+ post)).
  { exists (LF
            +:+ line "Create a comprehensive mental health support plan based on:"
            +:+ line "" +:+ indent).
    eexists. unfold format_task, line.
    rewrite !str_app_assoc. reflexivity. }
  assert (Hr : exists pre post,
             format_task f
             = (pre +:+ "Recent Changes: ") +:+ recent_changes f +:+ (LF +:+ post)).
  { exists (LF
            +:+ line "Create a comprehensive mental health support plan based on:"
            +:+ line ""
            +:+ line ("Emotional State: " +:+ mental_state f)
            +:+ line ("Sleep: " +:+ sleep_pattern f +:+ " hours per night")
            +:+ line ("Stress Level: " +:+ str_of_int (stress_level f) +:+ "/10")
            +:+ line ("Support System: " +:+ render_selection (support_system f))
            +:+ indent).
    eexists. unfold format_task, line.
    rewrite !str_app_assoc. reflexivity. }
  repeat split; try assumption.
  - destruct Hm as (pre & post & ->). apply str_contains_app.
  - destruct Hr as (pre & post & ->). apply str_contains_app.
Qed.

(** ** Submission handler: claims *)

(** C5.  With an empty credential the handler shows the credential-missing
    error and nothing else: no busy indicator, no task handed to the
    orchestration library (whatever that library would do), and the session
    output is the one it was given. *)
Theorem empty_credential_skips_pipeline
    (chat : string -> string -> result (list dict))
    (form : IntakeForm) (ss : session_state) :
  on_submit chat "" form ss = (ss, [StError "Please enter your OpenAI API key."])
  /\ shows_spinner (snd (on_submit chat "" form ss)) = false
  /\ requested_tasks (snd (on_submit chat "" form ss)) = []
  /\ fst (on_submit chat "" form ss) = ss.
Proof. repeat split. Qed.

(** C3.  When the formatting / invocation / segmentation pipeline of a
    submission raises, the session output is exactly what it was before the
    submission, all three buckets included, whatever the class of the
    exception.  After the busy indicator and the call, an instance of
    [Exception] is reported by the two error messages; any other exception
    is not caught and leaves the script. *)
Theorem failed_submission_keeps_output
    (chat : string -> string -> result (list dict))
    (key : string) (form : IntakeForm) (ss : session_state) (e : exn) :
  key <> "" ->
  pipeline chat key form = Raise e ->
  fst (on_submit chat key form ss) = ss
  /\ fst (script chat key form true ss) = init_session ss
  /\ snd (on_submit chat key form ss)
     = ([ StSpinner "🤖 AI Agents are analyzing your situation...";
          InitiateChat key (format_task form) ]
        ++ (if is_Exception e
            then [ StError ("An error occurred: " +:+ exn_str e);
                   StError "Please check your API key and try again." ]
            else [ Propagated e ]))%list.
Proof.
  intros Hkey Hraise.
  destruct key as [|c k]; [now destruct Hkey |].
  unfold script, on_submit. rewrite Hraise.
  destruct (is_Exception e); repeat split.
Qed.

Lemma failed_submission_keeps_output_witness :
  let chat := fun _ _ : string =>
    Raise (Exception "AuthenticationError" "Incorrect API key provided") in
  let form := {| mental_state := "Tired"; sleep_pattern := "5";
                 stress_level := 8; support_system := [];
                 recent_changes := ""; current_symptoms := ["Insomnia"] |} in
  let ss := Some {| assessment := "old assessment"; action := "old action";
                    followup := "old followup" |} in
  fst (on_submit chat "sk-invalid" form ss) = ss
  /\ fst (script chat "sk-invalid" form true ss) = init_session ss
  /\ snd (on_submit chat "sk-invalid" form ss)
     = [ StSpinner "🤖 AI Agents are analyzing your situation...";
         InitiateChat "sk-invalid" (format_task form);
         StError "An error occurred: Incorrect API key provided";
         StError "Please check your API key and try again." ].
Proof.
  cbv zeta.
  apply (failed_submission_keeps_output _ "sk-invalid" _ _
           (Exception "AuthenticationError" "Incorrect API key provided")).
  - discriminate.
  - reflexivity.
Defined.

(** * Further properties of the script *)

(** ** Splitting what was joined *)

Lemma char_free_cons (a c : ascii) (t : string) :
  char_free a (String c t) = true -> a <> c /\ char_free a t = true.
Proof.
  unfold char_free. rewrite str_contains_cons, prefix_cons.
  destruct (ascii_dec a c) as [-> | Hne].
  - now rewrite prefix_nil.
  - intros H. split; [exact Hne | exact H].
Qed.

Lemma char_free_app (a : ascii) (s t : string) :
  char_free a (s +:+ t) = char_free a s && char_free a t.
Proof.
  induction s as [|c s IH].
  - change ("" +:+ t) with t. unfold char_free at 2.
    now rewrite str_contains_unfold.
  - rewrite str_app_cons. unfold char_free in *.
    rewrite !str_contains_cons, !prefix_cons.
    destruct (ascii_dec a c); [now rewrite !prefix_nil | exact IH].
Qed.

(** A text without the separator's first character is read into the current
    fragment whole. *)
Lemma split_scan_char_free (a : ascii) (sep' t : string) :
  char_free a t = true ->
  forall cur rest,
    split_scan (String a sep') 0 cur (t +:+ rest)
    = split_scan (String a sep') 0 (cur +:+ t) rest.
Proof.
  induction t as [|c t IH]; intros Hfree cur rest.
  - now rewrite str_app_nil_r.
  - apply char_free_cons in Hfree as [Hne Hfree].
    rewrite str_app_cons. cbn [split_scan]. rewrite prefix_cons.
    destruct (ascii_dec a c) as [Heq | _]; [now destruct Hne |].
    rewrite (IH Hfree). now rewrite str_app_assoc.
Qed.

Lemma split_scan_separator (a : ascii) (sep' cur rest : string) :
  split_scan (String a sep') 0 cur (String a sep' +:+ rest)
  = cur :: split_scan (String a sep') 0 "" rest.
Proof.
  rewrite str_app_cons. cbn [split_scan].
  rewrite <- str_app_cons, prefix_app.
  replace (String.length (String a sep') - 1)%nat
    with (String.length sep') by (cbn [String.length]; lia).
  now rewrite split_scan_skip.
Qed.

Lemma split_scan_join (a : ascii) (sep' : string) (xs : list string) :
  forall x cur,
    forallb (char_free a) (x :: xs) = true ->
    split_scan (String a sep') 0 cur (str_join (String a sep') (x :: xs))
    = (cur +:+ x) :: xs.
Proof.
  induction xs as [|y ys IH]; intros x cur H;
    apply andb_prop in H as [Hx Hrest].
  - cbn [str_join]. rewrite <- (str_app_nil_r x) at 1.
    now rewrite (split_scan_char_free a sep' x Hx).
  - change (str_join (String a sep') (x :: y :: ys))
      with (x +:+ String a sep' +:+ str_join (String a sep') (y :: ys)).
    rewrite (split_scan_char_free a sep' x Hx), split_scan_separator.
    now rewrite (IH y "" Hrest).
Qed.

Lemma str_split_join (a : ascii) (sep' : string) (x : string) (xs : list string) :
  forallb (char_free a) (x :: xs) = true ->
  str_split (str_join (String a sep') (x :: xs)) (String a sep') = Ok (x :: xs).
Proof.
  intros H. unfold str_split. now rewrite (split_scan_join a sep' xs x "" H).
Qed.

Lemma char_free_join (a : ascii) (sep : string) (xs : list string) :
  char_free a sep = true ->
  forallb (char_free a) xs = true ->
  char_free a (str_join sep xs) = true.
Proof.
  intros Hsep. induction xs as [|x xs IH]; intros H; [reflexivity |].
  apply andb_prop in H as [Hx Hxs].
  destruct xs as [|y ys]; [exact Hx |].
  change (str_join sep (x :: y :: ys))
    with (x +:+ sep +:+ str_join sep (y :: ys)).
  now rewrite !char_free_app, Hx, Hsep, (IH Hxs).
Qed.

(** ** Selections taken from the widgets' options *)

Lemma selected_from_forallb (P : string -> bool) (options xs : list string) :
  forallb P options = true ->
  selected_from options xs = true ->
  forallb P xs = true.
Proof.
  intros Hopt Hsel. apply forallb_forall. intros x Hx.
  unfold selected_from in Hsel.
  rewrite forallb_forall in Hsel. specialize (Hsel x Hx).
  unfold list_contains in Hsel. apply existsb_exists in Hsel as (y & Hy & Heq).
  apply String.eqb_eq in Heq. subst y.
  rewrite forallb_forall in Hopt. now apply Hopt.
Qed.

Lemma widget_options_plain (options : list string) :
  In options [support_options; symptom_options] ->
  forallb plain_label options = true.
Proof.
  intros [<- | [<- | []]]; reflexivity.
Qed.

Lemma plain_labels_comma_free (xs : list string) :
  forallb plain_label xs = true -> forallb (char_free ",") xs = true.
Proof.
  intros H. apply forallb_forall. intros x Hx.
  rewrite forallb_forall in H. specialize (H x Hx).
  unfold plain_label in H.
  apply andb_prop in H as [H _]. now apply andb_prop in H as [H _].
Qed.

Lemma plain_labels_lf_free (xs : list string) :
  forallb plain_label xs = true ->
  forallb (char_free (ascii_of_nat 10)) xs = true.
Proof.
  intros H. apply forallb_forall. intros x Hx.
  rewrite forallb_forall in H. specialize (H x Hx).
  unfold plain_label in H.
  apply andb_prop in H as [H _]. now apply andb_prop in H as [_ H].
Qed.

Lemma render_selection_split (xs : list string) :
  forallb plain_label xs = true ->
  str_split (render_selection xs) ", "
  = Ok (match xs with [] => ["None reported"] | _ :: _ => xs end).
Proof.
  intros H. destruct xs as [|x xs]; [reflexivity |].
  apply (str_split_join "," " " x xs). now apply plain_labels_comma_free.
Qed.

Lemma render_selection_inj (xs ys : list string) :
  forallb plain_label xs = true ->
  forallb plain_label ys = true ->
  render_selection xs = render_selection ys ->
  xs = ys.
Proof.
  intros Hxs Hys Heq.
  pose proof (render_selection_split xs Hxs) as Sx.
  pose proof (render_selection_split ys Hys) as Sy.
  rewrite Heq, Sy in Sx. injection Sx as Sx.
  destruct xs as [|x xs], ys as [|y ys]; try reflexivity.
  - injection Sx as -> ->. vm_compute in Hys. discriminate Hys.
  - injection Sx as <- <-. vm_compute in Hxs. discriminate Hxs.
  - now symmetry.
Qed.

(** ** The decimal rendering of the stress level *)

Lemma string_of_uint_lf_free (d : Decimal.uint) :
  char_free (ascii_of_nat 10) (NilEmpty.string_of_uint d) = true.
Proof.
  induction d; [reflexivity | ..];
    cbn [NilEmpty.string_of_uint];
    unfold char_free in *; rewrite str_contains_cons, prefix_cons;
    (destruct (ascii_dec _ _) as [Heq | _]; [discriminate Heq | exact IHd]).
Qed.

Lemma str_of_int_lf_free (z : Z) :
  char_free (ascii_of_nat 10) (str_of_int z) = true.
Proof.
  unfold str_of_int, NilZero.string_of_int, NilZero.string_of_uint.
  destruct (Z.to_int z) as [d | d]; destruct d;
    solve [ reflexivity
          | apply string_of_uint_lf_free
          | apply (string_of_uint_lf_free (Decimal.D0 Decimal.Nil))
          | unfold char_free; rewrite str_contains_cons, prefix_cons;
            destruct (ascii_dec _ _) as [Heq | _];
            [discriminate Heq | apply string_of_uint_lf_free] ].
Qed.

Lemma to_int_nonnil (z : Z) :
  Z.to_int z <> Decimal.Pos Decimal.Nil /\ Z.to_int z <> Decimal.Neg Decimal.Nil.
Proof.
  destruct z as [|p|p]; cbn; split; try discriminate;
    intros H; injection H as H;
    exact (DecimalPos.Unsigned.to_uint_nonnil p H).
Qed.

Lemma str_of_int_inj (z1 z2 : Z) : str_of_int z1 = str_of_int z2 -> z1 = z2.
Proof.
  unfold str_of_int. intros H.
  destruct (to_int_nonnil z1) as [P1 N1], (to_int_nonnil z2) as [P2 N2].
  pose proof (NilZero.isi (Z.to_int z1) P1 N1) as I1.
  pose proof (NilZero.isi (Z.to_int z2) P2 N2) as I2.
  rewrite H, I2 in I1. injection I1 as I1.
  rewrite <- (DecimalZ.of_to z1), <- (DecimalZ.of_to z2). now rewrite I1.
Qed.

(** ** Cancelling around an interpolated field *)

Lemma str_app_inv_head (s t1 t2 : string) : s +:+ t1 = s +:+ t2 -> t1 = t2.
Proof.
  induction s as [|c s IH]; intros H; [exact H |].
  rewrite !str_app_cons in H. injection H as H. now apply IH.
Qed.

Lemma str_app_inv_tail (t : string) (s1 : string) :
  forall s2, s1 +:+ t = s2 +:+ t -> s1 = s2.
Proof.
  induction s1 as [|c s1 IH]; intros s2 H.
  - apply (f_equal String.length) in H.
    rewrite !str_length_app in H. destruct s2; [reflexivity | cbn in H; lia].
  - destruct s2 as [|d s2].
    + apply (f_equal String.length) in H.
      rewrite !str_length_app in H. cbn in H. lia.
    + rewrite !str_app_cons in H. injection H as -> H.
      now rewrite (IH s2 H).
Qed.

(** ** The layout of the task *)

Lemma format_task_join (f : IntakeForm) :
  format_task f = str_join LF (task_lines f).
Proof.
  unfold format_task, task_lines, line. cbn [str_join].
  rewrite !str_app_assoc. reflexivity.
Qed.

Lemma list_contains_forallb (P : string -> bool) (options : list string)
    (x : string) :
  forallb P options = true -> list_contains options x = true -> P x = true.
Proof.
  intros Hopt Hx. unfold list_contains in Hx.
  apply existsb_exists in Hx as (y & Hy & Heq).
  apply String.eqb_eq in Heq. subst y.
  rewrite forallb_forall in Hopt. now apply Hopt.
Qed.

Lemma render_selection_lf_free (xs : list string) :
  forallb plain_label xs = true ->
  char_free (ascii_of_nat 10) (render_selection xs) = true.
Proof.
  intros H. destruct xs as [|x xs]; [reflexivity |].
  apply char_free_join; [reflexivity | now apply plain_labels_lf_free].
Qed.

Lemma widget_form_fields (f : IntakeForm) :
  widget_form f = true ->
  char_free (ascii_of_nat 10) (sleep_pattern f) = true
  /\ forallb plain_label (support_system f) = true
  /\ forallb plain_label (current_symptoms f) = true.
Proof.
  unfold widget_form. intros H.
  apply andb_prop in H as [H Hsym].
  apply andb_prop in H as [H Hsup].
  apply andb_prop in H as [H _].
  apply andb_prop in H as [Hsleep _].
  repeat split.
  - now apply (list_contains_forallb _ sleep_options).
  - apply (selected_from_forallb _ support_options); [| exact Hsup].
    apply widget_options_plain. now left.
  - apply (selected_from_forallb _ symptom_options); [| exact Hsym].
    apply widget_options_plain. right. now left.
Qed.

Lemma task_lines_lf_free (f : IntakeForm) :
  widget_form f = true ->
  single_line_texts f = true ->
  forallb (char_free (ascii_of_nat 10)) (task_lines f) = true.
Proof.
  intros Hw Ht.
  destruct (widget_form_fields f Hw) as (Hsleep & Hsup & Hsym).
  apply andb_prop in Ht as [Hmood Hrecent].
  unfold task_lines. cbn [forallb].
  rewrite !char_free_app.
  rewrite Hmood, Hrecent, Hsleep, str_of_int_lf_free.
  rewrite (render_selection_lf_free _ Hsup), (render_selection_lf_free _ Hsym).
  reflexivity.
Qed.

Lemma format_task_split (f : IntakeForm) :
  widget_form f = true ->
  single_line_texts f = true ->
  str_split (format_task f) LF = Ok (task_lines f).
Proof.
  intros Hw Ht. rewrite format_task_join.
  apply (str_split_join (ascii_of_nat 10) "" "").
  now apply task_lines_lf_free.
Qed.

(** ** Prompt Formatter: further properties *)

(** X1.  A non-empty selection taken from either multiselect's options is
    recovered, labels and order, by splitting its rendering at ", ". *)
Theorem selection_round_trip (options xs : list string) :
  In options [support_options; symptom_options] ->
  selected_from options xs = true ->
  xs <> [] ->
  str_split (render_selection xs) ", " = Ok xs.
Proof.
  intros Hopt Hsel Hne.
  pose proof (selected_from_forallb _ options xs
                (widget_options_plain options Hopt) Hsel) as Hplain.
  rewrite (render_selection_split xs Hplain).
  destruct xs; [now destruct Hne | reflexivity].
Qed.

Lemma selection_round_trip_witness :
  str_split (render_selection ["Support Groups"; "Family"]) ", "
  = Ok ["Support Groups"; "Family"].
Proof.
  apply (selection_round_trip support_options).
  - now left.
  - reflexivity.
  - discriminate.
Defined.

(** X2.  Two selections from the same multiselect that render to the same
    text are the same selection; in particular the empty selection
    ("None reported") is not confused with the selected label "None". *)
Theorem selection_unambiguous (options xs ys : list string) :
  In options [support_options; symptom_options] ->
  selected_from options xs = true ->
  selected_from options ys = true ->
  render_selection xs = render_selection ys ->
  xs = ys.
Proof.
  intros Hopt Hxs Hys.
  pose proof (widget_options_plain options Hopt) as Hplain.
  apply render_selection_inj.
  - exact (selected_from_forallb _ options xs Hplain Hxs).
  - exact (selected_from_forallb _ options ys Hplain Hys).
Qed.

Lemma selection_unambiguous_witness :
  ["None"; "Friends"] = ["None"; "Friends"].
Proof.
  apply (selection_unambiguous support_options).
  - now left.
  - reflexivity.
  - reflexivity.
  - reflexivity.
Defined.

(** X3.  For a form whose slider and multiselect values are ones the widgets
    can return and whose two text areas hold no line feed, splitting the task
    at line feeds gives exactly fifteen fragments: the empty text before the
    first line feed, the thirteen lines of the literal with each field on
    its own line, and the closing indentation. *)
Theorem task_line_structure (f : IntakeForm) :
  widget_form f = true ->
  single_line_texts f = true ->
  str_split (format_task f) LF = Ok (task_lines f)
  /\ length (task_lines f) = 15%nat.
Proof.
  intros Hw Ht. split; [now apply format_task_split | reflexivity].
Qed.

Lemma task_line_structure_witness :
  let f := {| mental_state := "Tired and anxious";
              sleep_pattern := "5";
              stress_level := 8;
              support_system := ["Family"; "Friends"];
              recent_changes := "New job";
              current_symptoms := [] |} in
  str_split (format_task f) LF = Ok (task_lines f)
  /\ length (task_lines f) = 15%nat.
Proof.
  cbv zeta. apply task_line_structure; reflexivity.
Defined.

(** X4.  On such forms the Prompt Formatter loses nothing: two forms with
    the same task string have the same six values. *)
Theorem format_task_injective (f1 f2 : IntakeForm) :
  widget_form f1 = true -> single_line_texts f1 = true ->
  widget_form f2 = true -> single_line_texts f2 = true ->
  format_task f1 = format_task f2 ->
  f1 = f2.
Proof.
  intros Hw1 Ht1 Hw2 Ht2 Heq.
  pose proof (format_task_split f1 Hw1 Ht1) as S1.
  pose proof (format_task_split f2 Hw2 Ht2) as S2.
  rewrite Heq, S2 in S1. injection S1 as Hm Hs Hl Hp Hr Hc.
  destruct (widget_form_fields f1 Hw1) as (_ & Hsup1 & Hsym1).
  destruct (widget_form_fields f2 Hw2) as (_ & Hsup2 & Hsym2).
  change ("" +:+ ?s) with s in *.
  apply str_app_inv_tail in Hs.
  apply str_app_inv_tail, str_of_int_inj in Hl.
  apply render_selection_inj in Hp, Hc; try assumption.
  destruct f1, f2; cbn in *. now subst.
Qed.

Lemma format_task_injective_witness :
  {| mental_state := "Tired"; sleep_pattern := "5"; stress_level := 8;
     support_system := ["None"]; recent_changes := "";
     current_symptoms := ["Fatigue"] |}
  = {| mental_state := "Tired"; sleep_pattern := "5"; stress_level := 8;
       support_system := ["None"]; recent_changes := "";
       current_symptoms := ["Fatigue"] |}.
Proof.
  apply format_task_injective; reflexivity.
Defined.

Example format_task_collision :
  let inner :=
    LF +:+ line "Sleep: 5 hours per night" +:+ line "Stress Level: 5/10"
    +:+ line "Support System: None reported" +:+ indent +:+ "Recent Changes: " in
  let f1 := {| mental_state := "Low" +:+ inner; sleep_pattern := "5";
               stress_level := 5; support_system := [];
               recent_changes := "Moved"; current_symptoms := [] |} in
  let f2 := {| mental_state := "Low"; sleep_pattern := "5";
               stress_level := 5; support_system := [];
               recent_changes := inner +:+ "Moved"; current_symptoms := [] |} in
  format_task f1 = format_task f2 /\ f1 <> f2.
Proof.
  cbv zeta. split; [reflexivity |].
  intros H. apply (f_equal recent_changes) in H. vm_compute in H.
  discriminate H.
Qed.

(** ** Fragments hold no separator *)

Section Fragments.

Variables (a : ascii) (sep' : string).
Local Abbreviation sep := (String a sep').
Local Abbreviation unmatched := (unmatched (String a sep')).

Lemma prefix_app_r (v s : string) :
  String.prefix sep v = true -> String.prefix sep (v +:+ s) = true.
Proof.
  intros H. destruct (prefix_true _ _ H) as [r ->].
  rewrite str_app_assoc. apply prefix_app.
Qed.

Lemma unmatched_nil (s : string) : unmatched "" s.
Proof.
  intros u v H Hv. destruct u; [| discriminate H].
  now destruct Hv.
Qed.

Lemma snoc_suffix (c : ascii) (cur : string) :
  forall u v,
    cur +:+ String c "" = u +:+ v -> v <> "" ->
    exists v0, v = v0 +:+ String c "" /\ cur = u +:+ v0.
Proof.
  induction cur as [|d cur IH]; intros u v H Hv.
  - destruct u as [|e u].
    + exists "". now split.
    + rewrite str_app_cons in H. injection H as _ H.
      destruct u; [| discriminate H]. now destruct Hv.
  - destruct u as [|e u].
    + exists (String d cur). now split.
    + rewrite !str_app_cons in H. injection H as <- H.
      destruct (IH u v H Hv) as (v0 & -> & ->).
      now exists v0.
Qed.

Lemma unmatched_snoc (c : ascii) (cur s : string) :
  unmatched cur (String c s) ->
  String.prefix sep (String c s) = false ->
  unmatched (cur +:+ String c "") s.
Proof.
  intros Hinv Hp u v H Hv.
  destruct (snoc_suffix c cur u v H Hv) as (v0 & -> & Hcur).
  rewrite str_app_assoc. change (String c "" +:+ s) with (String c s).
  destruct v0 as [|e v0]; [exact Hp |].
  apply (Hinv u); [exact Hcur | discriminate].
Qed.

Lemma unmatched_contains (cur s : string) :
  unmatched cur s -> str_contains sep cur = false.
Proof.
  revert s. induction cur as [|c cur IH]; intros s Hinv; [reflexivity |].
  rewrite str_contains_cons. apply orb_false_intro.
  - destruct (String.prefix sep (String c cur)) eqn:Hp; [| reflexivity].
    rewrite <- (Hinv "" (String c cur) eq_refl ltac:(discriminate)).
    symmetry. now apply prefix_app_r.
  - apply (IH s). intros u v H Hv.
    apply (Hinv (String c u)); [| exact Hv]. now rewrite H.
Qed.

Lemma split_scan_fragments (s : string) :
  forall skip cur,
    (skip = 0%nat -> unmatched cur s) ->
    (skip <> 0%nat -> cur = "") ->
    Forall (fun fragment => str_contains sep fragment = false)
           (split_scan sep skip cur s).
Proof.
  induction s as [|c s IH]; intros skip cur Hzero Hskip; cbn [split_scan].
  - constructor; [| constructor].
    destruct skip as [|k].
    + apply (unmatched_contains cur ""). now apply Hzero.
    + now rewrite Hskip.
  - destruct skip as [|k].
    + specialize (Hzero eq_refl).
      destruct (String.prefix sep (String c s)) eqn:Hp.
      * constructor; [now apply (unmatched_contains cur (String c s)) |].
        apply IH; intros _; [apply unmatched_nil | reflexivity].
      * apply IH; [intros _; now apply unmatched_snoc | now intros []].
    + rewrite (Hskip ltac:(discriminate)).
      apply IH; intros _; [apply unmatched_nil | reflexivity].
Qed.

(** When the scan yields more than one fragment, the first one ends where
    the separator is first recognised. *)
Lemma split_scan_first (s : string) :
  forall cur x y l,
    unmatched cur s ->
    split_scan sep 0 cur s = x :: y :: l ->
    exists rest, cur +:+ s = x +:+ sep +:+ rest /\ unmatched x (sep +:+ rest).
Proof.
  induction s as [|c s IH]; intros cur x y l Hinv Hs; cbn [split_scan] in Hs.
  - discriminate Hs.
  - destruct (String.prefix sep (String c s)) eqn:Hp.
    + injection Hs as <- _.
      destruct (prefix_true _ _ Hp) as [rest Hrest].
      exists rest. rewrite <- Hrest. now split.
    + destruct (IH _ x y l (unmatched_snoc c cur s Hinv Hp) Hs)
        as (rest & Heq & Hun).
      exists rest. split; [| exact Hun].
      rewrite <- Heq. now rewrite str_app_assoc.
Qed.

End Fragments.

(** Up to the first blank line, a text followed by one line feed holds no
    blank line. *)
Lemma unmatched_blank_line (x rest : string) :
  unmatched blank_line x (blank_line +:+ rest) ->
  str_contains blank_line (x +:+ LF) = false.
Proof.
  induction x as [|c x IH]; intros Hinv; [reflexivity |].
  rewrite str_app_cons, str_contains_cons. apply orb_false_intro.
  - destruct (String.prefix blank_line (String c (x +:+ LF))) eqn:Hp;
      [| reflexivity].
    rewrite <- (Hinv "" (String c x) eq_refl ltac:(discriminate)).
    rewrite blank_line_unfold in *.
    apply (prefix_app_r _ _ _ (LF +:+ rest)) in Hp.
    rewrite <- Hp. rewrite <- str_app_cons, str_app_assoc. reflexivity.
  - apply IH. intros u v H Hv.
    apply (Hinv (String c u)); [| exact Hv]. now rewrite H.
Qed.

(** ** Response Segmenter: further properties *)

Lemma store_results_buckets (sections : list string) (full : string)
    (o : SessionOutput) (P : string -> Prop) :
  sections <> [] ->
  Forall P sections ->
  P "" ->
  store_results sections full = Ok o ->
  Forall P (buckets o).
Proof.
  intros Hne Hall Hempty Ho.
  destruct sections as [|x [|y [|z rest]]]; [now destruct Hne | ..];
    cbn in Ho; injection Ho as <-; unfold buckets; cbn;
    repeat match goal with
           | H : Forall _ (_ :: _) |- _ => inversion H; subst; clear H
           end;
    repeat constructor; assumption.
Qed.

(** X5.  Whatever the conversation, none of the three stored buckets holds a
    blank line: each bucket is at most one paragraph of the assistant
    text. *)
Theorem buckets_hold_no_blank_line (conv : list dict) (o : SessionOutput) :
  segment conv = Ok o ->
  Forall (fun bucket => str_contains blank_line bucket = false) (buckets o).
Proof.
  intros Ho. unfold segment in Ho.
  destruct (full_response conv) as [full | e]; [| discriminate Ho].
  cbn [bind] in Ho. rewrite str_split_blank_line in Ho. cbn [bind] in Ho.
  refine (store_results_buckets _ full o _ _ _ eq_refl Ho).
  - destruct (split_scan_cons blank_line full 0 "") as (x & l & ->).
    discriminate.
  - rewrite blank_line_unfold.
    apply split_scan_fragments; [intros _; apply unmatched_nil | now intros []].
Qed.

Lemma buckets_hold_no_blank_line_witness :
  Forall (fun bucket => str_contains blank_line bucket = false)
    (buckets {| assessment := "Breathe."; action := "Rest."; followup := "" |}).
Proof.
  apply (buckets_hold_no_blank_line
           [turn "assistant" ("Breathe." +:+ blank_line +:+ "Rest.")]).
  reflexivity.
Defined.

Lemma add_str_non_text (m : dict) :
  has_text m = false ->
  exists v,
    m !! "content" = Some v
    /\ add_str (dict_get_default m "content" (PyStr "")) blank_line
       = Raise (Exception "TypeError"
                  ("unsupported operand type(s) for +: '" +:+ type_name v
                   +:+ "' and 'str'")).
Proof.
  unfold has_text, dict_get_default.
  destruct (m !! "content") as [[| t | z] |]; intros H; try discriminate H.
  - now exists PyNone.
  - now exists (PyInt z).
Qed.

Lemma concat_assistant_non_text (conv : list dict) :
  text_payloads conv = false ->
  forall acc,
  exists m v,
    find (fun m => negb (has_text m)) (assistant_turns conv) = Some m
    /\ m !! "content" = Some v
    /\ concat_assistant acc conv
       = Raise (Exception "TypeError"
                  ("unsupported operand type(s) for +: '" +:+ type_name v
                   +:+ "' and 'str'")).
Proof.
  unfold text_payloads, assistant_turns.
  induction conv as [|m conv IH]; intros H acc; [discriminate H |].
  cbn [concat_assistant List.filter] in *.
  destruct (is_assistant m) eqn:Hm; [| now apply IH].
  cbn [forallb find] in *.
  destruct (has_text m) eqn:Ht.
  - rewrite (add_str_text m Ht). cbn [bind negb]. now apply IH.
  - destruct (add_str_non_text m Ht) as (v & Hv & ->).
    exists m, v. now repeat split.
Qed.

(** X6.  The Response Segmenter returns exactly when every assistant-tagged
    turn carries text (or no content entry).  Otherwise it raises a
    [TypeError] that names the type of the content of the first
    assistant-tagged turn that does not; guarded indexing never raises. *)
Theorem segment_raises_iff_non_text (conv : list dict) :
  match segment conv with
  | Ok _ => text_payloads conv = true
  | Raise e =>
      text_payloads conv = false
      /\ exists m v,
           find (fun m => negb (has_text m)) (assistant_turns conv) = Some m
           /\ m !! "content" = Some v
           /\ e = Exception "TypeError"
                    ("unsupported operand type(s) for +: '" +:+ type_name v
                     +:+ "' and 'str'")
  end.
Proof.
  destruct (text_payloads conv) eqn:Ht.
  - destruct (segment_text_total conv Ht) as [o ->]. reflexivity.
  - destruct (concat_assistant_non_text conv Ht "") as (m & v & Hm & Hv & Hr).
    unfold segment, full_response. rewrite Hr. cbn [bind].
    split; [reflexivity |]. now exists m, v.
Qed.

(** X7.  When every assistant-tagged turn carries a text without a blank line
    and without a final line feed, the buckets are the texts of the first
    three such turns in order, with the empty string where there is none;
    later turns are dropped. *)
Theorem segment_first_three_turns (conv : list dict) :
  text_payloads conv = true ->
  single_fragment_payloads conv = true ->
  segment conv
  = Ok {| assessment := nth 0 (assistant_texts conv) "";
          action := nth 1 (assistant_texts conv) "";
          followup := nth 2 (assistant_texts conv) "" |}.
Proof.
  intros Htext Hsf.
  rewrite (segment_of_full_response _ _ (full_response_text conv Htext)).
  unfold single_fragment_payloads in Hsf.
  rewrite (split_terminated _ Hsf).
  destruct (assistant_texts conv) as [|x [|y [|z rest]]]; reflexivity.
Qed.

Lemma segment_first_three_turns_witness :
  let conv := [turn "user" "task"; turn "assistant" "One";
               turn "assistant" "Two"; turn "assistant" "Three";
               turn "assistant" "Four"] in
  segment conv
  = Ok {| assessment := nth 0 (assistant_texts conv) "";
          action := nth 1 (assistant_texts conv) "";
          followup := nth 2 (assistant_texts conv) "" |}.
Proof.
  cbv zeta. apply segment_first_three_turns; reflexivity.
Defined.

Lemma segment_ok_text (conv : list dict) (o : SessionOutput) :
  segment conv = Ok o -> text_payloads conv = true.
Proof.
  intros Ho. destruct (text_payloads conv) eqn:Ht; [reflexivity |].
  destruct (concat_assistant_non_text conv Ht "") as (m & v & _ & _ & Hr).
  unfold segment, full_response in Ho. rewrite Hr in Ho. discriminate Ho.
Qed.

(** X8.  The assessment bucket is the concatenated assistant text up to its
    first blank line: the concatenation is the bucket followed by nothing or
    by a blank line and more text, and no blank line starts inside the
    bucket (the bucket holds none, and neither does the bucket followed by
    one line feed). *)
Theorem assessment_is_first_paragraph (conv : list dict) (o : SessionOutput) :
  segment conv = Ok o ->
  exists full rest,
    full_response conv = Ok full
    /\ full = assessment o +:+ rest
    /\ (rest = "" \/ exists more, rest = blank_line +:+ more)
    /\ str_contains blank_line (assessment o) = false
    /\ str_contains blank_line (assessment o +:+ LF) = false.
Proof.
  intros Ho.
  pose proof (full_response_text conv (segment_ok_text conv o Ho)) as Hfull.
  rewrite (segment_of_full_response _ _ Hfull) in Ho.
  exists (terminated (assistant_texts conv)).
  assert (Hfr : Forall (fun fr => str_contains blank_line fr = false)
                  (split_scan blank_line 0 ""
                     (terminated (assistant_texts conv)))).
  { rewrite blank_line_unfold.
    apply split_scan_fragments; [intros _; apply unmatched_nil | now intros []]. }
  destruct (split_scan blank_line 0 "" (terminated (assistant_texts conv)))
    as [|x l] eqn:Hs.
  { destruct (split_scan_cons blank_line (terminated (assistant_texts conv))
                0 "") as (x & l & Hx).
    rewrite Hx in Hs. discriminate Hs. }
  destruct (store_results_cons x l (terminated (assistant_texts conv)))
    as (b & c & Hst).
  rewrite Hst in Ho. injection Ho as <-. cbn [assessment].
  apply Forall_inv in Hfr.
  destruct l as [|y l'].
  - pose proof (join_split _ blank_line [x]
                  (eq_trans (str_split_blank_line _) (f_equal Ok Hs))) as Hj.
    cbn [str_join] in Hj.
    destruct (assistant_texts conv) as [|t texts].
    + cbn [terminated] in Hj. subst x. exists "".
      repeat split; try reflexivity; try exact Hfull. now left.
    + rewrite Hj in Hfr. cbn [terminated] in Hfr.
      rewrite (str_contains_app t blank_line (terminated texts)) in Hfr.
      discriminate Hfr.
  - rewrite blank_line_unfold in Hs.
    destruct (split_scan_first _ _ _ "" x y l' (unmatched_nil _ _ _) Hs)
      as (rest & Heq & Hun).
    rewrite <- blank_line_unfold in Heq, Hun.
    exists (blank_line +:+ rest). repeat split.
    + exact Hfull.
    + exact Heq.
    + right. now exists rest.
    + exact Hfr.
    + exact (unmatched_blank_line x rest Hun).
Qed.

Lemma assessment_is_first_paragraph_witness :
  exists full rest,
    full_response [turn "assistant" ("Breathe." +:+ blank_line +:+ "Rest.")]
    = Ok full
    /\ full = "Breathe." +:+ rest
    /\ (rest = "" \/ exists more, rest = blank_line +:+ more)
    /\ str_contains blank_line "Breathe." = false
    /\ str_contains blank_line ("Breathe." +:+ LF) = false.
Proof.
  apply (assessment_is_first_paragraph
           [turn "assistant" ("Breathe." +:+ blank_line +:+ "Rest.")]
           {| assessment := "Breathe."; action := "Rest."; followup := "" |}).
  reflexivity.
Defined.

Lemma concat_assistant_acc (conv : list dict) :
  forall acc,
    concat_assistant acc conv
    = let* r := concat_assistant "" conv in Ok (acc +:+ r).
Proof.
  induction conv as [|m conv IH]; intros acc; cbn [concat_assistant].
  - cbn [bind]. now rewrite str_app_nil_r.
  - destruct (is_assistant m); [| apply IH].
    destruct (add_str _ _) as [piece | e]; cbn [bind]; [| reflexivity].
    rewrite (IH (acc +:+ piece)), (IH ("" +:+ piece)).
    destruct (concat_assistant "" conv) as [r | e]; cbn [bind];
      [| reflexivity].
    now rewrite str_app_assoc.
Qed.

Lemma concat_assistant_app (c1 c2 : list dict) :
  forall acc,
    concat_assistant acc (c1 ++ c2)%list
    = let* a := concat_assistant acc c1 in concat_assistant a c2.
Proof.
  induction c1 as [|m c1 IH]; intros acc; [reflexivity |].
  cbn [concat_assistant app].
  destruct (is_assistant m); [| apply IH].
  destruct (add_str _ _) as [piece | e]; cbn [bind]; [apply IH | reflexivity].
Qed.

(** X9.  The concatenation is built turn by turn: for a conversation made of
    two parts it is the concatenation of the first part followed by that of
    the second, and an exception raised in the first part is the one
    raised for the whole. *)
Theorem full_response_app (c1 c2 : list dict) :
  full_response (c1 ++ c2)%list
  = let* a := full_response c1 in
    let* b := full_response c2 in
    Ok (a +:+ b).
Proof.
  unfold full_response. rewrite concat_assistant_app.
  destruct (concat_assistant "" c1) as [a | e]; cbn [bind]; [| reflexivity].
  apply concat_assistant_acc.
Qed.

(** ** Submission handler: further properties *)

(** X10.  When the orchestration library returns a chat history whose
    assistant-tagged turns all carry text, a submission with a credential
    succeeds: the segmented output replaces the stored one, its three
    buckets are shown in order under their panels, the success message
    follows, and no error is shown. *)
Theorem submission_succeeds_on_text
    (chat : string -> string -> result (list dict))
    (key : string) (form : IntakeForm) (ss : session_state)
    (conv : list dict) :
  key <> "" ->
  chat key (format_task form) = Ok conv ->
  text_payloads conv = true ->
  exists o,
    segment conv = Ok o
    /\ on_submit chat key form ss
       = (Some o,
          [ StSpinner "🤖 AI Agents are analyzing your situation...";
            InitiateChat key (format_task form);
            StExpander "Situation Assessment" true (assessment o);
            StExpander "Action Plan & Resources" false (action o);
            StExpander "Long-term Support Strategy" false (followup o);
            StSuccess "✨ Mental health support plan generated successfully!" ]).
Proof.
  intros Hkey Hchat Htext.
  destruct (segment_text_total conv Htext) as [o Ho].
  exists o. split; [exact Ho |].
  destruct key as [|c k]; [now destruct Hkey |].
  unfold on_submit, pipeline. rewrite Hchat. cbn [bind]. now rewrite Ho.
Qed.

Lemma submission_succeeds_on_text_witness :
  let chat := fun _ _ : string =>
    Ok [turn "user" "task"; turn "assistant" "You sound exhausted."] in
  let form := {| mental_state := "Tired"; sleep_pattern := "5";
                 stress_level := 8; support_system := [];
                 recent_changes := ""; current_symptoms := ["Insomnia"] |} in
  exists o,
    segment [turn "user" "task"; turn "assistant" "You sound exhausted."] = Ok o
    /\ on_submit chat "sk-test" form None
       = (Some o,
          [ StSpinner "🤖 AI Agents are analyzing your situation...";
            InitiateChat "sk-test" (format_task form);
            StExpander "Situation Assessment" true (assessment o);
            StExpander "Action Plan & Resources" false (action o);
            StExpander "Long-term Support Strategy" false (followup o);
            StSuccess "✨ Mental health support plan generated successfully!" ]).
Proof.
  cbv zeta.
  apply (submission_succeeds_on_text _ "sk-test" _ None
           [turn "user" "task"; turn "assistant" "You sound exhausted."]).
  - discriminate.
  - reflexivity.
  - reflexivity.
Defined.

(** X11.  What a run of the script shows and requests does not depend on the
    session output stored by earlier runs: the stored record is written, and
    read back only within the run that wrote it. *)
Theorem stored_output_never_shown_later
    (chat : string -> string -> result (list dict))
    (key : string) (form : IntakeForm) (button : bool)
    (ss1 ss2 : session_state) :
  snd (script chat key form button ss1) = snd (script chat key form button ss2).
Proof.
  unfold script, on_submit.
  destruct button; [| reflexivity].
  destruct key as [|c k]; [reflexivity |].
  destruct (pipeline chat (String c k) form) as [o | e]; [reflexivity |].
  destruct (is_Exception e); reflexivity.
Qed.

(** X12.  After every run the session holds an output record, and that
    record is either the one held before (the three empty strings when there
    was none) or the result of this run's pipeline, which then was invoked
    with a credential after a button press and returned. *)
Theorem stored_output_after_run
    (chat : string -> string -> result (list dict))
    (key : string) (form : IntakeForm) (button : bool) (ss : session_state) :
  exists o,
    fst (script chat key form button ss) = Some o
    /\ (init_session ss = Some o
        \/ (button = true /\ key <> "" /\ pipeline chat key form = Ok o)).
Proof.
  assert (Hinit : exists o, init_session ss = Some o).
  { destruct ss as [o |]; cbn; eauto. }
  destruct Hinit as [o0 Hinit].
  unfold script. rewrite Hinit.
  destruct button; [| exists o0; split; [reflexivity | now left]].
  unfold on_submit.
  destruct key as [|c k]; [exists o0; split; [reflexivity | now left] |].
  destruct (pipeline chat (String c k) form) as [o | e] eqn:Hp.
  - exists o. split; [reflexivity |]. right. now repeat split.
  - exists o0. destruct (is_Exception e); split; (reflexivity || now left).
Qed.
